(** * Iris light bridge: value scaling and cached device state

  A shallow embedding of [custom_components/iris_light/light.py].

  Python integers are [Z].  The only non-integer values the program builds
  are the results of the true division [/] inside [scale_to_ranged_value];
  they are kept as exact rationals [Q], and [math.ceil] and [round] take
  them back to [Z].  For integers below 2^40 in magnitude the double the
  interpreter computes and the exact quotient have the same ceiling and the
  same rounding: a quotient that is ceiled is an integer (exact as a double)
  or at least [1/346] away from one, a quotient that is rounded is a
  half-integer (exact as well) or at least [1/10] away from one, far more
  than the rounding error.  Statements about the conversions are therefore
  made on bounded domains.  A true division whose result exceeds the double
  range raises [OverflowError]; module [Double] adds that check to the
  brightness read path, the one conversion that is applied to whatever
  integer a refresh has cached. *)

From Stdlib Require Import ZArith QArith Qround Lia.
From stdpp Require Import gmap strings.

Local Open Scope Z_scope.

(** ** Python numeric primitives *)

Module Py.

(** [math.ceil] on a float. *)
Definition ceil (x : Q) : Z := Qceiling x.

(** The builtin [round] with one argument: nearest integer, ties to the
    even neighbour. *)
Definition round (x : Q) : Z :=
  let f := Qfloor x in
  match Qcompare (x - inject_Z f) (1 # 2) with
  | Lt => f
  | Gt => f + 1
  | Eq => if Z.even f then f else f + 1
  end.

End Py.

(** ** [homeassistant.util.scaling]

  The entity imports [scale_to_ranged_value] from the host platform
  (line 15 of the source); it is transcribed here from the platform's
  [util/scaling.py], together with the helper it calls. *)

Module Scaling.

(** [states_in_range]: how many states a (low, high) range holds. *)
Definition states_in_range (low_high_range : Z * Z) : Z :=
  snd low_high_range - fst low_high_range + 1.

(** [scale_to_ranged_value]:
    [(value - source_offset) * states_in_range(target)
       / states_in_range(source) + target_offset]
    with both offsets one below the low end of their range. *)
Definition scale_to_ranged_value
    (source_low_high_range target_low_high_range : Z * Z) (value : Z) : Q :=
  let source_offset := fst source_low_high_range - 1 in
  let target_offset := fst target_low_high_range - 1 in
  (inject_Z ((value - source_offset) * states_in_range target_low_high_range)
     / inject_Z (states_in_range source_low_high_range)
   + inject_Z target_offset)%Q.

End Scaling.

Import Scaling.

(** ** Python exceptions and the effect monad *)

(** The exceptions the entity's code can raise: a missing dictionary key,
    a transport failure of the HTTP session, a body that is not JSON, and
    the two errors of a true division of integers. *)
Inductive exn : Type :=
| KeyError (key : string)
| ClientError
| JSONDecodeError
| OverflowError
| ZeroDivisionError.

Inductive outcome (A : Type) : Type :=
| Returned (a : A)
| Raised (e : exn).

Arguments Returned {A} a.
Arguments Raised {A} e.

(** One HTTP POST: the full URL and the value of the JSON body
    [{"value": value}], [None] for Python's [None]. *)
Record Request : Type := mkRequest {
  req_url : string;
  req_value : option Z
}.

(** A [ClientResponse]: its body decoded by [response.json()], [None] when
    the body is not JSON. *)
Record ClientResponse : Type := mkResponse {
  json : option (gmap string Z)
}.

(** The shared [ClientSession]: whether a POST is delivered or fails in
    transport, and what a GET of a URL answers ([None]: it fails in
    transport). *)
Record ClientSession : Type := mkSession {
  post_ok : Request -> bool;
  get : string -> option ClientResponse
}.

Module IrisLight.

(** The instance attributes of [Light]. *)
Record Light : Type := mkLight {
  _brightness : Z;
  _color_temp : Z;
  _state : Z;
  _host : string;
  _session : ClientSession;
  _url : string
}.

(** What a coroutine of the entity acts on: the entity, the POSTs issued so
    far (oldest first) and the number of [async_write_ha_state] calls. *)
Record World : Type := mkWorld {
  self : Light;
  posted : list Request;
  ha_state_writes : nat
}.

Definition M (A : Type) : Type := World -> outcome A * World.

Definition ret {A} (a : A) : M A := fun w => (Returned a, w).

Definition raise {A} (e : exn) : M A := fun w => (Raised e, w).

Definition bind {A B} (m : M A) (k : A -> M B) : M B :=
  fun w =>
    match m w with
    | (Returned a, w') => k a w'
    | (Raised e, w') => (Raised e, w')
    end.

Notation "x <- m ;; k" := (bind m (fun x => k))
  (at level 100, m at next level, right associativity).
Notation "m ;;; k" := (bind m (fun _ => k))
  (at level 100, right associativity).

Definition get_self : M Light := fun w => (Returned (self w), w).

Definition set_brightness (v : Z) : M unit := fun w =>
  let l := self w in
  (Returned tt,
   mkWorld (mkLight v (_color_temp l) (_state l) (_host l) (_session l) (_url l))
           (posted w) (ha_state_writes w)).

Definition set_color_temp (v : Z) : M unit := fun w =>
  let l := self w in
  (Returned tt,
   mkWorld (mkLight (_brightness l) v (_state l) (_host l) (_session l) (_url l))
           (posted w) (ha_state_writes w)).

Definition set_state (v : Z) : M unit := fun w =>
  let l := self w in
  (Returned tt,
   mkWorld (mkLight (_brightness l) (_color_temp l) v (_host l) (_session l) (_url l))
           (posted w) (ha_state_writes w)).

(** [self.async_write_ha_state()]. *)
Definition async_write_ha_state : M unit := fun w =>
  (Returned tt, mkWorld (self w) (posted w) (S (ha_state_writes w))).

(** [self._session.post(url, json={"value": value})]. *)
Definition session_post (url : string) (value : option Z) : M unit := fun w =>
  let r := mkRequest url value in
  let w' := mkWorld (self w) (posted w ++ [r]) (ha_state_writes w) in
  if post_ok (_session (self w)) r then (Returned tt, w') else (Raised ClientError, w').

(** [d[key]] on a dictionary. *)
Definition getitem (d : gmap string Z) (key : string) : M Z :=
  match d !! key with
  | Some v => ret v
  | None => raise (KeyError key)
  end.

(** Class attributes. *)
Definition BRIGHTNESS_SCALE : Z * Z := (1, 10).
Definition COLOR_TEMP_SCALE : Z * Z := (1, 11).
Definition default_brightness : Z := 10.
Definition default_color_temp : Z := 6.
Definition default_state : Z := 2.

(** [CONF_HOST] of the host platform's constants. *)
Definition CONF_HOST : string := "host".

(** [Light.__init__]: [hass] is reduced to the session it hands out and
    [config_entry] to its [data] dictionary. *)
Definition __init__ (hass : ClientSession) (config_entry : gmap string string)
  : outcome Light :=
  match config_entry !! CONF_HOST with
  | None => Raised (KeyError CONF_HOST)
  | Some host =>
      Returned (mkLight default_brightness default_color_temp default_state
                        host hass ("http://" +:+ host +:+ "/api/iris-lights/"))
  end.

Definition _value_to_brightness (low_high_range : Z * Z) (value : Z) : Z :=
  Z.min 255 (Z.max 1 (Py.round (scale_to_ranged_value low_high_range (5, 255) value))).

Definition _brightness_to_value (low_high_range : Z * Z) (brightness : Z) : Q :=
  scale_to_ranged_value (5, 255) low_high_range brightness.

(** Properties. *)
Definition name (l : Light) : string := _host l.

Definition brightness (l : Light) : Z :=
  if _state l =? 1 then 1
  else _value_to_brightness BRIGHTNESS_SCALE (_brightness l).

Definition color_temp (l : Light) : Z :=
  Py.ceil (scale_to_ranged_value COLOR_TEMP_SCALE (155, 500) (_color_temp l)).

Definition is_on (l : Light) : bool := negb (_state l =? 0).

(** [_post_data(url, value=None)]. *)
Definition _post_data (url : string) (value : option Z) : M unit :=
  l <- get_self ;;
  session_post (_url l +:+ url) value.

(** [async_turn_on] with keyword arguments [kwargs]. *)
Definition async_turn_on (kwargs : gmap string Z) : M unit :=
  if bool_decide (kwargs !! "brightness" = Some 1) then
    _post_data "night" None
  else
    _post_data "on" None ;;;
    match kwargs !! "brightness" with
    | Some b =>
        let v := Py.ceil (_brightness_to_value BRIGHTNESS_SCALE b) in
        set_brightness v ;;;
        _post_data "bright" (Some v)
    | None => ret tt
    end ;;;
    match kwargs !! "color_temp" with
    | Some ct =>
        let v := Py.ceil (scale_to_ranged_value (155, 500) COLOR_TEMP_SCALE ct) in
        set_color_temp v ;;;
        _post_data "color-temp" (Some v)
    | None => ret tt
    end.

(** [async_turn_off]. *)
Definition async_turn_off : M unit := _post_data "off" None.

(** [_set_update(response)]. *)
Definition _set_update (response : ClientResponse) : M unit :=
  match json response with
  | None => raise JSONDecodeError
  | Some data =>
      b <- getitem data "brightness" ;;
      set_brightness b ;;;
      c <- getitem data "color_temp" ;;
      set_color_temp c ;;;
      s <- getitem data "state" ;;
      set_state s ;;;
      async_write_ha_state
  end.

(** [get_update]. *)
Definition get_update : M unit :=
  l <- get_self ;;
  match get (_session l) (_url l) with
  | None => raise ClientError
  | Some response => _set_update response
  end.

(** [async_update]. *)
Definition async_update : M unit := get_update.

(** The calls the host platform makes on the entity.  A refresh is given the
    response its GET received. *)
Inductive op : Type :=
| TurnOn (kwargs : gmap string Z)
| TurnOff
| Refresh (response : ClientResponse).

Definition perform (o : op) : M unit :=
  match o with
  | TurnOn kwargs => async_turn_on kwargs
  | TurnOff => async_turn_off
  | Refresh response => _set_update response
  end.

(** The entity outlives a call that raised: the exception goes to the host
    platform, the next call finds the world the failed one left. *)
Fixpoint run (ops : list op) (w : World) : World :=
  match ops with
  | [] => w
  | o :: ops' => run ops' (snd (perform o w))
  end.

(** The cached device state. *)
Definition cache (l : Light) : Z * Z * Z :=
  (_brightness l, _color_temp l, _state l).

(** The native domains of the data model. *)
Definition in_native_domains (l : Light) : Prop :=
  1 <= _brightness l <= 10 /\ 1 <= _color_temp l <= 11 /\ 0 <= _state l <= 2.

End IrisLight.

Import IrisLight.

(** ** Notions the statements below are written with *)

(** The host interval one native brightness unit stands for: the 251 states
    of the host range (5, 255) over the 10 native states. *)
Definition brightness_quantization_step : Q :=
  Qdiv (inject_Z (states_in_range (5, 255)))
       (inject_Z (states_in_range BRIGHTNESS_SCALE)).

(** The first of the three fields [_set_update] reads that a decoded body
    lacks, in the order it reads them. *)
Definition first_missing (data : gmap string Z) : option string :=
  match data !! "brightness", data !! "color_temp", data !! "state" with
  | None, _, _ => Some "brightness"
  | Some _, None, _ => Some "color_temp"
  | Some _, Some _, None => Some "state"
  | Some _, Some _, Some _ => None
  end.

(** A call that stays inside the documented domains: a turn-on asks for
    brightness 1 (night) or a level of the host range (5, 255) and for a
    color temperature of the range (155, 500) mireds; every field a decoded
    refresh body carries lies in its native domain. *)
Definition in_domain (o : op) : Prop :=
  match o with
  | TurnOn kwargs =>
      (forall b, kwargs !! "brightness" = Some b -> b = 1 \/ 5 <= b <= 255) /\
      (forall ct, kwargs !! "color_temp" = Some ct -> 155 <= ct <= 500)
  | TurnOff => True
  | Refresh response =>
      forall data, json response = Some data ->
        (forall v, data !! "brightness" = Some v -> 1 <= v <= 10) /\
        (forall v, data !! "color_temp" = Some v -> 1 <= v <= 11) /\
        (forall v, data !! "state" = Some v -> 0 <= v <= 2)
  end.

(** The POSTs issued between world [w] and a later world [w']. *)
Definition sent_since (w w' : World) : list Request :=
  drop (length (posted w)) (posted w').

(** A session whose POSTs are all delivered. *)
Definition delivers (s : ClientSession) : Prop :=
  forall r, post_ok s r = true.

(** Sample values: a session with a reachable device that answers no GET,
    an entity as constructed for host ["lamp"], and the world it starts in. *)
Definition reachable : ClientSession :=
  mkSession (fun _ => true) (fun _ => None).

Definition lamp : Light :=
  mkLight default_brightness default_color_temp default_state
          "lamp" reachable "http://lamp/api/iris-lights/".

Definition fresh : World := mkWorld lamp [] 0.

(** ** The brightness read path within the double range

    [scale_to_ranged_value] divides two Python integers with [/].  The
    interpreter rounds the quotient to the nearest double and raises
    [OverflowError] when that double would lie beyond the largest finite
    one, that is when the quotient's magnitude reaches [2^1024 - 2^970], and
    [ZeroDivisionError] for a zero divisor.  Below, the quotient itself stays
    exact.  For the brightness read path this loses nothing: a cached value
    of 0..10 is converted exactly, and any other value gives a quotient
    above 280 or below -21, on either side of the clamp, in doubles too. *)

Module Double.

(** The least magnitude that is too large for a double. *)
Definition overflow_threshold : Z := 2 ^ 1024 - 2 ^ 970.

(** [a / b] on two integers. *)
Definition true_divide (a b : Z) : outcome Q :=
  if b =? 0 then Raised ZeroDivisionError
  else if overflow_threshold * Z.abs b <=? Z.abs a then Raised OverflowError
  else Returned (inject_Z a / inject_Z b)%Q.

(** [scale_to_ranged_value], with the division checked. *)
Definition scale_to_ranged_value
    (source_low_high_range target_low_high_range : Z * Z) (value : Z)
  : outcome Q :=
  let source_offset := fst source_low_high_range - 1 in
  let target_offset := fst target_low_high_range - 1 in
  match true_divide ((value - source_offset) * states_in_range target_low_high_range)
                    (states_in_range source_low_high_range) with
  | Returned q => Returned (q + inject_Z target_offset)%Q
  | Raised e => Raised e
  end.

(** [_value_to_brightness]. *)
Definition _value_to_brightness (low_high_range : Z * Z) (value : Z) : outcome Z :=
  match scale_to_ranged_value low_high_range (5, 255) value with
  | Returned x => Returned (Z.min 255 (Z.max 1 (Py.round x)))
  | Raised e => Raised e
  end.

(** The [brightness] property. *)
Definition brightness (l : Light) : outcome Z :=
  if _state l =? 1 then Returned 1
  else _value_to_brightness BRIGHTNESS_SCALE (_brightness l).

End Double.

(** An entity whose cache holds a brightness of 10^400, as a refresh whose
    body reports that integer leaves it. *)
Definition dazzled : Light :=
  mkLight (10 ^ 400) 6 2 "lamp" reachable "http://lamp/api/iris-lights/".

(** ** Platform setup *)

(** What [async_setup_entry] leaves behind: how the coroutine ended, how many
    entities it handed to [async_add_entities], and the world of the entity
    it constructed, if it got that far. *)
Record Setup : Type := mkSetup {
  setup_result : outcome unit;
  added : nat;
  entity : option World
}.

(** [async_setup_entry(hass, config_entry, async_add_entities)]: construct
    the entity, add it, then [await light.get_update()]. *)
Definition async_setup_entry
    (hass : ClientSession) (config_entry : gmap string string) : Setup :=
  match __init__ hass config_entry with
  | Raised e => mkSetup (Raised e) 0 None
  | Returned light =>
      let started := get_update (mkWorld light [] 0) in
      mkSetup (fst started) 1 (Some (snd started))
  end.

(** ** Notions of the wire protocol *)

(** A request the device's control surface knows, below base URL [base]:
    "on", "off" and "night" carry a null value, "bright" and "color-temp" an
    integer. *)
Definition wire_request (base : string) (r : Request) : Prop :=
  (req_value r = None
   /\ req_url r ∈ [base +:+ "on"; base +:+ "off"; base +:+ "night"])
  \/ (is_Some (req_value r)
      /\ req_url r ∈ [base +:+ "bright"; base +:+ "color-temp"]).

(** Whether a call ends in [async_write_ha_state]: only a refresh whose body
    decodes and carries the three fields does. *)
Definition notifies (o : op) : bool :=
  match o with
  | Refresh response =>
      match json response with
      | Some data =>
          match first_missing data with
          | None => true
          | Some _ => false
          end
      | None => false
      end
  | _ => false
  end.


(** A session whose device is unreachable for POSTs and answers the GET of
    the sample entity's base URL with the given body. *)
Definition answering (body : gmap string Z) : ClientSession :=
  mkSession
    (fun _ => false)
    (fun url =>
       if String.eqb url "http://lamp/api/iris-lights/"
       then Some (mkResponse (Some body)) else None).

(** The requests of a turn-on that is not the night case, when every POST is
    delivered. *)
Definition turn_on_requests (base : string) (kwargs : gmap string Z)
  : list Request :=
  [mkRequest (base +:+ "on") None]
  ++ match kwargs !! "brightness" with
     | Some b => [mkRequest (base +:+ "bright")
                            (Some (Py.ceil (_brightness_to_value BRIGHTNESS_SCALE b)))]
     | None => []
     end
  ++ match kwargs !! "color_temp" with
     | Some m => [mkRequest (base +:+ "color-temp")
                            (Some (Py.ceil (scale_to_ranged_value (155, 500)
                                                                  COLOR_TEMP_SCALE m)))]
     | None => []
     end.

(** * Proofs *)

(** ** Rounding a fraction

    Every value the entity rounds is [a / m + c] for integers [a], [c] and a
    positive [m]; as a fraction over [m] its floor, ceiling and rounding are
    integer divisions. *)

Section Fractions.

Variables (n : Z) (p : positive).

Lemma quotient_as_fraction (a c : Z) :
  (inject_Z a / inject_Z (Z.pos p) + inject_Z c == (a + c * Z.pos p) # p)%Q.
Proof.
  unfold Qeq, Qdiv, Qinv, Qmult, Qplus, inject_Z. simpl.
  rewrite !Pos.mul_1_r, ?Pos.mul_1_l. lia.
Qed.

Lemma floor_fraction : Qfloor (n # p) = n / Z.pos p.
Proof. reflexivity. Qed.

Lemma ceil_fraction : Py.ceil (n # p) = - (- n / Z.pos p).
Proof. reflexivity. Qed.

Lemma round_fraction :
  Py.round (n # p) =
  match 2 * (n mod Z.pos p) ?= Z.pos p with
  | Lt => n / Z.pos p
  | Gt => n / Z.pos p + 1
  | Eq => if Z.even (n / Z.pos p) then n / Z.pos p else n / Z.pos p + 1
  end.
Proof.
  unfold Py.round. rewrite floor_fraction.
  replace (((n # p) - inject_Z (n / Z.pos p)) ?= 1 # 2)%Q
    with (2 * (n mod Z.pos p) ?= Z.pos p); [reflexivity|].
  unfold Qcompare, Qminus, Qplus, Qopp, inject_Z. simpl.
  rewrite Pos.mul_1_r, Z.mod_eq by lia.
  f_equal; lia.
Qed.

End Fractions.

Lemma round_comp (x y : Q) : (x == y)%Q -> Py.round x = Py.round y.
Proof.
  intros E. unfold Py.round.
  rewrite (Qfloor_comp _ _ E).
  assert (E' : (x - inject_Z (Qfloor y) == y - inject_Z (Qfloor y))%Q)
    by (rewrite E; reflexivity).
  rewrite (Qcompare_comp _ _ E' (1 # 2) (1 # 2) (Qeq_refl _)). reflexivity.
Qed.

Lemma ceil_comp (x y : Q) : (x == y)%Q -> Py.ceil x = Py.ceil y.
Proof. intros E. unfold Py.ceil. now rewrite E. Qed.

(** ** The conversions of the entity as integer divisions *)

Lemma round_quotient (a c : Z) (p : positive) :
  Py.round (inject_Z a / inject_Z (Z.pos p) + inject_Z c) =
  Py.round ((a + c * Z.pos p) # p).
Proof. apply round_comp, quotient_as_fraction. Qed.

Lemma ceil_quotient (a c : Z) (p : positive) :
  Py.ceil (inject_Z a / inject_Z (Z.pos p) + inject_Z c) =
  - (- (a + c * Z.pos p) / Z.pos p).
Proof.
  rewrite (ceil_comp _ _ (quotient_as_fraction p a c)). apply ceil_fraction.
Qed.

Lemma round_between (n : Z) (p : positive) :
  2 * Z.pos p * Py.round (n # p) - Z.pos p <= 2 * n
    <= 2 * Z.pos p * Py.round (n # p) + Z.pos p.
Proof.
  rewrite round_fraction.
  pose proof (Z.div_mod n (Z.pos p) ltac:(lia)) as D.
  pose proof (Z.mod_pos_bound n (Z.pos p) ltac:(lia)) as B.
  destruct (Z.compare_spec (2 * (n mod Z.pos p)) (Z.pos p));
    try destruct (Z.even _); nia.
Qed.

Lemma round_fraction_mono (n1 n2 : Z) (p : positive) :
  n1 <= n2 -> Py.round (n1 # p) <= Py.round (n2 # p).
Proof.
  intros Hle. rewrite !round_fraction.
  pose proof (Z.div_mod n1 (Z.pos p) ltac:(lia)) as D1.
  pose proof (Z.mod_pos_bound n1 (Z.pos p) ltac:(lia)) as B1.
  pose proof (Z.div_mod n2 (Z.pos p) ltac:(lia)) as D2.
  pose proof (Z.mod_pos_bound n2 (Z.pos p) ltac:(lia)) as B2.
  assert (Q12 : n1 / Z.pos p <= n2 / Z.pos p) by (apply Z.div_le_mono; lia).
  destruct (Z.eq_dec (n1 / Z.pos p) (n2 / Z.pos p)) as [E|NE].
  - rewrite E in *.
    destruct (Z.compare_spec (2 * (n1 mod Z.pos p)) (Z.pos p));
      destruct (Z.compare_spec (2 * (n2 mod Z.pos p)) (Z.pos p));
      try destruct (Z.even _); nia.
  - destruct (Z.compare_spec (2 * (n1 mod Z.pos p)) (Z.pos p));
      destruct (Z.compare_spec (2 * (n2 mod Z.pos p)) (Z.pos p));
      try destruct (Z.even (n1 / _)); try destruct (Z.even (n2 / _)); lia.
Qed.

Lemma value_to_brightness_native (v : Z) :
  _value_to_brightness BRIGHTNESS_SCALE v =
  Z.min 255 (Z.max 1 (Py.round ((251 * v + 40) # 10))).
Proof.
  unfold _value_to_brightness, BRIGHTNESS_SCALE, scale_to_ranged_value,
    states_in_range. cbn [fst snd].
  change (10 - 1 + 1) with (Z.pos 10). rewrite round_quotient.
  do 3 f_equal. f_equal. lia.
Qed.

Lemma brightness_to_value_native (b : Z) :
  Py.ceil (_brightness_to_value BRIGHTNESS_SCALE b) = - (- (10 * (b - 4)) / 251).
Proof.
  unfold _brightness_to_value, BRIGHTNESS_SCALE, scale_to_ranged_value,
    states_in_range. cbn [fst snd].
  change (255 - 5 + 1) with (Z.pos 251). rewrite ceil_quotient.
  do 3 f_equal. lia.
Qed.

Lemma color_temp_to_value_native (ct : Z) :
  Py.ceil (scale_to_ranged_value (155, 500) COLOR_TEMP_SCALE ct) =
  - (- (11 * (ct - 154)) / 346).
Proof.
  unfold COLOR_TEMP_SCALE, scale_to_ranged_value, states_in_range.
  cbn [fst snd].
  change (500 - 155 + 1) with (Z.pos 346). rewrite ceil_quotient.
  do 3 f_equal. lia.
Qed.

(** ** Brightness read path *)

Example round_ties_to_even : Py.round (5 # 2) = 2 /\ Py.round (7 # 2) = 4.
Proof. split; reflexivity. Qed.

Example native_to_host_table :
  map (_value_to_brightness BRIGHTNESS_SCALE) [1; 2; 3; 4; 5; 6; 7; 8; 9; 10]
  = [29; 54; 79; 104; 130; 155; 180; 205; 230; 255].
Proof. reflexivity. Qed.

(** C5: for every integer native value in [1,10] the native-to-host
    brightness conversion over (1,10) and (5,255) gives a result in
    [1,255], and it never decreases when the value grows: for
    [1 <= v1 <= v2 <= 10], [1 <= convert v1 <= convert v2 <= 255]. *)
Theorem value_to_brightness_clamped_monotone (v1 v2 : Z) :
  1 <= v1 -> v1 <= v2 -> v2 <= 10 ->
  1 <= _value_to_brightness (1, 10) v1
  /\ _value_to_brightness (1, 10) v1 <= _value_to_brightness (1, 10) v2
  /\ _value_to_brightness (1, 10) v2 <= 255.
Proof.
  intros _ Hle _.
  change (1, 10) with BRIGHTNESS_SCALE. rewrite !value_to_brightness_native.
  assert (Py.round ((251 * v1 + 40) # 10) <= Py.round ((251 * v2 + 40) # 10))
    by (apply round_fraction_mono; lia).
  lia.
Qed.

Lemma value_to_brightness_clamped_monotone_witness :
  (1 <= 3 /\ 3 <= 7 /\ 7 <= 10)
  /\ 1 <= _value_to_brightness (1, 10) 3
  /\ _value_to_brightness (1, 10) 3 <= _value_to_brightness (1, 10) 7
  /\ _value_to_brightness (1, 10) 7 <= 255.
Proof.
  split; [lia | apply (value_to_brightness_clamped_monotone 3 7); lia].
Defined.

(** C4: whatever the cached native brightness, an entity whose power state
    is 1 (night mode) reports host brightness exactly 1; the proportional
    conversion is not consulted. *)
Theorem brightness_night_mode (l : Light) :
  _state l = 1 -> brightness l = 1.
Proof. intros H. unfold brightness. now rewrite H. Qed.

Lemma brightness_night_mode_witness :
  _state (mkLight 7 6 1 "lamp" reachable "http://lamp/api/iris-lights/") = 1
  /\ brightness (mkLight 7 6 1 "lamp" reachable "http://lamp/api/iris-lights/") = 1.
Proof.
  split; [reflexivity | apply brightness_night_mode; reflexivity].
Defined.

(** C10, as the code has it: for every integer cached native brightness
    whose scaled quotient [raw * 251 / 10] fits a double (magnitude below
    [2^1024 - 2^970], so every cached value below 10^306 in magnitude),
    inside the native domain or not, and for every cached value when the
    power state is 1, the brightness property returns an integer of
    [1,255], with no other precondition; the color-temperature property has
    no such clamp (a cached 12 reads as 532 mireds, above 500). *)
Theorem brightness_within_host_contract_in_double_range (l : Light) :
  _state l = 1
  \/ 251 * Z.abs (_brightness l) < 10 * Double.overflow_threshold ->
  (exists n, Double.brightness l = Returned n
             /\ n = brightness l /\ 1 <= n <= 255)
  /\ (exists l' : Light, 500 < color_temp l').
Proof.
  intros H. split.
  - exists (brightness l). split; [|split; [reflexivity|]].
    + unfold Double.brightness, brightness.
      destruct (Z.eqb_spec (_state l) 1) as [E|NE]; [reflexivity|].
      destruct H as [E|B]; [contradiction|].
      unfold Double._value_to_brightness, Double.scale_to_ranged_value,
        Double.true_divide, _value_to_brightness, scale_to_ranged_value,
        BRIGHTNESS_SCALE, states_in_range.
      cbn [fst snd]. change (10 - 1 + 1 =? 0) with false. cbv iota.
      destruct (Z.leb_spec (Double.overflow_threshold * Z.abs (10 - 1 + 1))
                           (Z.abs ((_brightness l - (1 - 1)) * (255 - 5 + 1))));
        [|reflexivity].
      exfalso. lia.
    + unfold brightness, _value_to_brightness.
      destruct (_state l =? 1); lia.
  - exists (mkLight 10 12 2 "lamp" reachable "http://lamp/api/iris-lights/").
    vm_compute. reflexivity.
Qed.

Lemma brightness_within_host_contract_in_double_range_witness :
  let l := mkLight 50 6 2 "lamp" reachable "http://lamp/api/iris-lights/" in
  (_state l = 1 \/ 251 * Z.abs (_brightness l) < 10 * Double.overflow_threshold)
  /\ exists n, Double.brightness l = Returned n
               /\ n = brightness l /\ 1 <= n <= 255.
Proof.
  assert (H : 251 * Z.abs 50 < 10 * Double.overflow_threshold)
    by (vm_compute; reflexivity).
  split; [right; exact H|].
  exact (proj1 (brightness_within_host_contract_in_double_range
                  (mkLight 50 6 2 "lamp" reachable "http://lamp/api/iris-lights/")
                  (or_intror H))).
Defined.

(** C10, as claimed, fails: with power state 2 and a cached brightness of
    10^400 the brightness property raises [OverflowError] and returns no
    integer. *)
Lemma brightness_of_huge_cache_overflows :
  _state dazzled = 2
  /\ _brightness dazzled = 10 ^ 400
  /\ Double.brightness dazzled = Raised OverflowError
  /\ ~ exists n, Double.brightness dazzled = Returned n /\ 1 <= n <= 255.
Proof.
  assert (E : Double.brightness dazzled = Raised OverflowError)
    by (vm_compute; reflexivity).
  split; [reflexivity|]. split; [reflexivity|]. split; [exact E|].
  intros (n & R & _). rewrite E in R. discriminate R.
Qed.

(** C6, as the code has it: with power state 2, cached native brightness 10
    reads as host brightness 255, and cached native brightness 1 reads as
    29, the rounding of 1 * 251 / 10 + 4 = 29.1. *)
Theorem brightness_native_extremes
    (ct : Z) (host : string) (session : ClientSession) (url : string) :
  brightness (mkLight 10 ct 2 host session url) = 255
  /\ brightness (mkLight 1 ct 2 host session url) = 29.
Proof. split; reflexivity. Qed.

(** C6, as claimed, fails: with power state 2 and cached native brightness 1
    the host brightness is not 5. *)
Lemma brightness_native_minimum_is_not_5 :
  _state (mkLight 1 6 2 "lamp" reachable "http://lamp/api/iris-lights/") = 2
  /\ _brightness (mkLight 1 6 2 "lamp" reachable "http://lamp/api/iris-lights/") = 1
  /\ brightness (mkLight 1 6 2 "lamp" reachable "http://lamp/api/iris-lights/") <> 5.
Proof. repeat split. vm_compute. discriminate. Qed.

(** ** Brightness round trip *)

(** C7: for every host brightness [b] of 1..255, writing it (host to native,
    ceiling) and reading it back (native to host, round to nearest, clamped)
    gives a host value at most one native quantization step away: it is
    never below [b] and at most 25 above, and 25 is within the step 251/10. *)
Theorem brightness_round_trip (b : Z) :
  1 <= b <= 255 ->
  let native := Py.ceil (_brightness_to_value BRIGHTNESS_SCALE b) in
  let back := _value_to_brightness BRIGHTNESS_SCALE native in
  0 <= back - b <= 25
  /\ (inject_Z (Z.abs (back - b)) <= brightness_quantization_step)%Q.
Proof.
  intros Hb native back.
  assert (R : 0 <= back - b <= 25).
  { subst back native.
    rewrite brightness_to_value_native, value_to_brightness_native.
    pose proof (Z.div_mod (- (10 * (b - 4))) 251 ltac:(lia)) as D.
    pose proof (Z.mod_pos_bound (- (10 * (b - 4))) 251 ltac:(lia)) as B.
    set (q := - (10 * (b - 4)) / 251) in *.
    pose proof (round_between (251 * - q + 40) 10) as RB.
    lia. }
  split; [exact R|].
  clearbody back native.
  change brightness_quantization_step with (251 # 10)%Q.
  unfold Qle. cbn [Qnum Qden inject_Z]. lia.
Qed.

Lemma brightness_round_trip_witness :
  1 <= 128 <= 255
  /\ (let native := Py.ceil (_brightness_to_value BRIGHTNESS_SCALE 128) in
      let back := _value_to_brightness BRIGHTNESS_SCALE native in
      0 <= back - 128 <= 25
      /\ (inject_Z (Z.abs (back - 128)) <= brightness_quantization_step)%Q).
Proof.
  split; [lia | apply (brightness_round_trip 128); lia].
Defined.

(** ** Commands *)

Ltac simpl_world :=
  cbn [self posted ha_state_writes _brightness _color_temp _state _host
       _session _url fst snd].

Ltac run_entity :=
  unfold _post_data, bind, get_self, session_post, set_brightness,
    set_color_temp, set_state, async_write_ha_state, getitem, ret, raise;
  simpl_world.

Lemma sent_since_app (w w' : World) (rs : list Request) :
  posted w' = posted w ++ rs -> sent_since w w' = rs.
Proof. intros E. unfold sent_since. rewrite E. apply drop_app_length. Qed.

(** What one [_post_data] does, delivered or not: it logs the request and
    leaves the entity alone. *)
Lemma post_data_spec (url : string) (value : option Z) (w : World) :
  let r := mkRequest (_url (self w) +:+ url) value in
  _post_data url value w =
  (if post_ok (_session (self w)) r then Returned tt else Raised ClientError,
   mkWorld (self w) (posted w ++ [r]) (ha_state_writes w)).
Proof. run_entity. now destruct (post_ok _ _). Qed.

(** C3: a turn-on whose options carry brightness 1 sends exactly one
    command, "night" with a null payload, whether or not a color temperature
    is also asked for; none of "on", "bright", "color-temp" is sent, and the
    entity, hence the cached brightness and color temperature, is as it was. *)
Theorem turn_on_brightness_1_sends_night_only
    (kwargs : gmap string Z) (w : World) :
  kwargs !! "brightness" = Some 1 ->
  let w' := snd (async_turn_on kwargs w) in
  let base := _url (self w) in
  sent_since w w' = [mkRequest (base +:+ "night") None]
  /\ (forall r, r ∈ sent_since w w' ->
        req_url r <> base +:+ "on" /\ req_url r <> base +:+ "bright"
        /\ req_url r <> base +:+ "color-temp")
  /\ self w' = self w
  /\ cache (self w') = cache (self w).
Proof.
  intros Hb w' base.
  assert (E : w' = mkWorld (self w)
                 (posted w ++ [mkRequest (base +:+ "night") None])
                 (ha_state_writes w)).
  { subst w'. unfold async_turn_on.
    rewrite bool_decide_eq_true_2 by exact Hb.
    now rewrite post_data_spec. }
  assert (S : sent_since w w' = [mkRequest (base +:+ "night") None])
    by (apply sent_since_app; now rewrite E).
  split; [exact S|]. split; [|now rewrite E].
  intros r Hr. rewrite S in Hr. apply list_elem_of_singleton in Hr. subst r.
  cbn [req_url].
  repeat split; intros C; apply (inj (String.append base)) in C; discriminate.
Qed.

Lemma turn_on_brightness_1_sends_night_only_witness :
  let kwargs : gmap string Z := {[ "brightness" := 1; "color_temp" := 300 ]} in
  kwargs !! "brightness" = Some 1
  /\ (let w' := snd (async_turn_on kwargs fresh) in
      let base := _url (self fresh) in
      sent_since fresh w' = [mkRequest (base +:+ "night") None]
      /\ (forall r, r ∈ sent_since fresh w' ->
            req_url r <> base +:+ "on" /\ req_url r <> base +:+ "bright"
            /\ req_url r <> base +:+ "color-temp")
      /\ self w' = self fresh
      /\ cache (self w') = cache (self fresh)).
Proof.
  split; [reflexivity|].
  apply (turn_on_brightness_1_sends_night_only
           {[ "brightness" := 1; "color_temp" := 300 ]} fresh).
  reflexivity.
Defined.

(** C8: with a session that delivers its POSTs, a turn-on with brightness
    128 and color temperature 300 returns after sending, in this order, "on"
    with a null payload, "bright" with the ceiling of 128 scaled from
    (5,255) to (1,10), and "color-temp" with the ceiling of 300 scaled from
    (155,500) to (1,11); both payloads are 5, and they are the cached native
    brightness and color temperature afterwards. *)
Theorem turn_on_128_300_commands (kwargs : gmap string Z) (w : World) :
  kwargs !! "brightness" = Some 128 ->
  kwargs !! "color_temp" = Some 300 ->
  delivers (_session (self w)) ->
  let nb := Py.ceil (scale_to_ranged_value (5, 255) (1, 10) 128) in
  let nc := Py.ceil (scale_to_ranged_value (155, 500) (1, 11) 300) in
  let base := _url (self w) in
  let w' := snd (async_turn_on kwargs w) in
  fst (async_turn_on kwargs w) = Returned tt
  /\ sent_since w w' =
       [mkRequest (base +:+ "on") None;
        mkRequest (base +:+ "bright") (Some nb);
        mkRequest (base +:+ "color-temp") (Some nc)]
  /\ _brightness (self w') = nb
  /\ _color_temp (self w') = nc
  /\ _state (self w') = _state (self w)
  /\ nb = 5 /\ nc = 5.
Proof.
  intros Hb Hc Hd nb nc base w'.
  assert (E : async_turn_on kwargs w =
    (Returned tt,
     mkWorld (mkLight nb nc (_state (self w)) (_host (self w))
                      (_session (self w)) (_url (self w)))
             (posted w ++ [mkRequest (base +:+ "on") None;
                           mkRequest (base +:+ "bright") (Some nb);
                           mkRequest (base +:+ "color-temp") (Some nc)])
             (ha_state_writes w))).
  { unfold async_turn_on.
    rewrite bool_decide_eq_false_2 by (rewrite Hb; discriminate).
    rewrite Hb, Hc. run_entity.
    repeat (rewrite Hd; simpl_world).
    rewrite <- !app_assoc. reflexivity. }
  subst w'. rewrite E. cbn [fst snd self _brightness _color_temp _state].
  split; [reflexivity|]. split; [now apply sent_since_app|].
  repeat split; reflexivity.
Qed.

Lemma turn_on_128_300_commands_witness :
  let kwargs : gmap string Z := {[ "brightness" := 128; "color_temp" := 300 ]} in
  (kwargs !! "brightness" = Some 128 /\ kwargs !! "color_temp" = Some 300
   /\ delivers (_session (self fresh)))
  /\ sent_since fresh (snd (async_turn_on kwargs fresh)) =
       [mkRequest "http://lamp/api/iris-lights/on" None;
        mkRequest "http://lamp/api/iris-lights/bright" (Some 5);
        mkRequest "http://lamp/api/iris-lights/color-temp" (Some 5)].
Proof.
  assert (D : delivers (_session (self fresh))) by (intros r; reflexivity).
  split; [repeat split; exact D|].
  exact (proj1 (proj2 (turn_on_128_300_commands
                  {[ "brightness" := 128; "color_temp" := 300 ]} fresh
                  eq_refl eq_refl D))).
Defined.

(** ** Refresh *)

(** C1, as the code has it: when a decoded refresh body lacks one of
    "brightness", "color_temp", "state", [_set_update] raises [KeyError] for
    the first field it fails to read and notifies nobody; the fields read
    before that one are already stored, so the cache is unchanged only when
    "brightness" is the missing field, and the cached power state is
    unchanged in every case. *)
Theorem set_update_missing_field
    (response : ClientResponse) (data : gmap string Z) (k : string) (w : World) :
  json response = Some data ->
  first_missing data = Some k ->
  let w' := snd (_set_update response w) in
  fst (_set_update response w) = Raised (KeyError k)
  /\ _brightness (self w') = default (_brightness (self w)) (data !! "brightness")
  /\ _color_temp (self w') =
       match data !! "brightness" with
       | Some _ => default (_color_temp (self w)) (data !! "color_temp")
       | None => _color_temp (self w)
       end
  /\ _state (self w') = _state (self w)
  /\ (data !! "brightness" = None -> w' = w)
  /\ ha_state_writes w' = ha_state_writes w
  /\ posted w' = posted w.
Proof.
  intros Hj Hk w'. subst w'. unfold _set_update, first_missing in *.
  rewrite Hj. run_entity.
  destruct (data !! "brightness") as [b|]; simpl_world.
  - destruct (data !! "color_temp") as [c|]; simpl_world.
    + destruct (data !! "state") as [s|]; [discriminate|].
      injection Hk as <-. simpl_world. cbn [default]. repeat split; congruence.
    + injection Hk as <-. cbn [default]. repeat split; congruence.
  - injection Hk as <-. cbn [default]. repeat split.
Qed.

Lemma set_update_missing_field_witness :
  let data : gmap string Z := {[ "brightness" := 3; "color_temp" := 4 ]} in
  (json (mkResponse (Some data)) = Some data
   /\ first_missing data = Some "state")
  /\ fst (_set_update (mkResponse (Some data)) fresh) = Raised (KeyError "state")
  /\ cache (self (snd (_set_update (mkResponse (Some data)) fresh))) = (3, 4, 2).
Proof.
  split; [split; reflexivity|].
  pose proof (set_update_missing_field
                (mkResponse (Some {[ "brightness" := 3; "color_temp" := 4 ]}))
                {[ "brightness" := 3; "color_temp" := 4 ]} "state" fresh
                eq_refl eq_refl) as (E & B & C & S & _).
  split; [exact E|]. unfold cache. rewrite B, C, S. reflexivity.
Defined.

(** C1, as claimed, fails: a body with brightness 3 and color temperature 4
    and no "state" makes [_set_update] raise, and the cache, (10, 6, 2)
    before the call, is (3, 4, 2) after it. *)
Lemma set_update_missing_state_overwrites_cache :
  let data : gmap string Z := {[ "brightness" := 3; "color_temp" := 4 ]} in
  let w' := snd (_set_update (mkResponse (Some data)) fresh) in
  data !! "state" = None
  /\ fst (_set_update (mkResponse (Some data)) fresh) = Raised (KeyError "state")
  /\ cache (self fresh) = (10, 6, 2)
  /\ cache (self w') = (3, 4, 2)
  /\ cache (self w') <> cache (self fresh).
Proof. repeat split. vm_compute. discriminate. Qed.

(** ** Construction *)

(** C9, as the code has it: construction performs no check of the device
    address; for every address string the configuration carries, the empty
    one included, it returns an entity with that host, the class defaults as
    cached state and the base URL [http://{host}/api/iris-lights/]. *)
Theorem init_accepts_any_host
    (hass : ClientSession) (config_entry : gmap string string) (host : string) :
  config_entry !! CONF_HOST = Some host ->
  __init__ hass config_entry =
  Returned (mkLight 10 6 2 host hass ("http://" +:+ host +:+ "/api/iris-lights/")).
Proof. intros H. unfold __init__. now rewrite H. Qed.

Lemma init_accepts_any_host_witness :
  ({[ CONF_HOST := "" ]} : gmap string string) !! CONF_HOST = Some ""
  /\ __init__ reachable {[ CONF_HOST := "" ]} =
     Returned (mkLight 10 6 2 "" reachable "http:///api/iris-lights/").
Proof.
  split; [reflexivity|].
  apply (init_accepts_any_host reachable {[ CONF_HOST := "" ]} ""). reflexivity.
Defined.

(** C9, as claimed, fails: constructing with the empty device address raises
    nothing. *)
Lemma init_empty_host_raises_nothing :
  ~ exists e, __init__ reachable {[ CONF_HOST := "" ]} = Raised e.
Proof. intros [e H]. vm_compute in H. discriminate. Qed.

(** ** The native domains along a run *)

Lemma native_brightness_in_domain (b : Z) :
  5 <= b <= 255 -> 1 <= Py.ceil (_brightness_to_value BRIGHTNESS_SCALE b) <= 10.
Proof.
  intros Hb. rewrite brightness_to_value_native.
  pose proof (Z.div_mod (- (10 * (b - 4))) 251 ltac:(lia)).
  pose proof (Z.mod_pos_bound (- (10 * (b - 4))) 251 ltac:(lia)).
  lia.
Qed.

Lemma native_color_temp_in_domain (ct : Z) :
  155 <= ct <= 500 ->
  1 <= Py.ceil (scale_to_ranged_value (155, 500) COLOR_TEMP_SCALE ct) <= 11.
Proof.
  intros Hc. rewrite color_temp_to_value_native.
  pose proof (Z.div_mod (- (11 * (ct - 154))) 346 ltac:(lia)).
  pose proof (Z.mod_pos_bound (- (11 * (ct - 154))) 346 ltac:(lia)).
  lia.
Qed.

Lemma turn_on_preserves_domains (kwargs : gmap string Z) (w : World) :
  in_domain (TurnOn kwargs) ->
  in_native_domains (self w) ->
  in_native_domains (self (snd (async_turn_on kwargs w))).
Proof.
  intros [Hb Hc] (Ib & Ic & Is). unfold async_turn_on.
  case_bool_decide as Hnight.
  - rewrite post_data_spec. simpl_world. now repeat split.
  - assert (Nb : forall b, kwargs !! "brightness" = Some b ->
                   1 <= Py.ceil (_brightness_to_value BRIGHTNESS_SCALE b) <= 10).
    { intros b E. apply native_brightness_in_domain.
      destruct (Hb b E) as [->|]; [contradiction|assumption]. }
    assert (Nc : forall ct, kwargs !! "color_temp" = Some ct ->
                   1 <= Py.ceil (scale_to_ranged_value (155, 500) COLOR_TEMP_SCALE ct) <= 11).
    { intros ct E. now apply native_color_temp_in_domain, Hc. }
    unfold in_native_domains. run_entity.
    destruct (kwargs !! "brightness") as [b|];
      destruct (kwargs !! "color_temp") as [ct|];
      try specialize (Nb _ eq_refl); try specialize (Nc _ eq_refl);
      repeat (simpl_world;
              match goal with
              | |- context [post_ok ?s ?r] => destruct (post_ok s r)
              end);
      simpl_world; lia.
Qed.

Lemma set_update_preserves_domains (response : ClientResponse) (w : World) :
  in_domain (Refresh response) ->
  in_native_domains (self w) ->
  in_native_domains (self (snd (_set_update response w))).
Proof.
  intros Hd (Ib & Ic & Is). unfold _set_update, in_native_domains. cbn in Hd.
  destruct (json response) as [data|]; [|now repeat split].
  destruct (Hd data eq_refl) as (Db & Dc & Ds). run_entity.
  destruct (data !! "brightness") as [b|]; simpl_world; [|lia].
  specialize (Db b eq_refl).
  destruct (data !! "color_temp") as [c|]; simpl_world; [|lia].
  specialize (Dc c eq_refl).
  destruct (data !! "state") as [s|]; simpl_world; [|lia].
  specialize (Ds s eq_refl). lia.
Qed.

Lemma perform_preserves_domains (o : op) (w : World) :
  in_domain o ->
  in_native_domains (self w) ->
  in_native_domains (self (snd (perform o w))).
Proof.
  destruct o as [kwargs| |response]; cbn [perform].
  - apply turn_on_preserves_domains.
  - intros _ I. unfold async_turn_off. now rewrite post_data_spec.
  - apply set_update_preserves_domains.
Qed.

Lemma run_preserves_domains (ops : list op) :
  Forall in_domain ops ->
  forall w, in_native_domains (self w) -> in_native_domains (self (run ops w)).
Proof.
  induction 1 as [|o ops Ho _ IH]; intros w I; cbn [run].
  - exact I.
  - apply IH. now apply perform_preserves_domains.
Qed.

(** C2, as the code has it: starting from a constructed entity, after any
    sequence of turn-ons, turn-offs and refreshes that stay inside the
    documented domains (a requested brightness of 1 or of 5..255, a requested
    color temperature of 155..500, refresh bodies whose fields lie in
    1..10, 1..11 and 0..2), delivered or not, complete or not, the cached
    brightness lies in 1..10, the cached color temperature in 1..11 and the
    power state in 0..2. *)
Theorem native_domains_invariant
    (hass : ClientSession) (config_entry : gmap string string) (l : Light)
    (ops : list op) :
  __init__ hass config_entry = Returned l ->
  Forall in_domain ops ->
  in_native_domains (self (run ops (mkWorld l [] 0))).
Proof.
  intros Hi Hops. apply run_preserves_domains; [exact Hops|].
  unfold __init__ in Hi. destruct (config_entry !! CONF_HOST); [|discriminate].
  injection Hi as <-. unfold in_native_domains. simpl_world.
  unfold default_brightness, default_color_temp, default_state. lia.
Qed.

Lemma native_domains_invariant_witness :
  let ops := [TurnOn {[ "brightness" := 128; "color_temp" := 300 ]};
              Refresh (mkResponse (Some {[ "brightness" := 3; "color_temp" := 4 ]}));
              TurnOff] in
  (__init__ reachable {[ CONF_HOST := "lamp" ]} = Returned lamp
   /\ Forall in_domain ops)
  /\ in_native_domains (self (run ops (mkWorld lamp [] 0))).
Proof.
  assert (D : Forall in_domain
                [TurnOn {[ "brightness" := 128; "color_temp" := 300 ]};
                 Refresh (mkResponse (Some {[ "brightness" := 3; "color_temp" := 4 ]}));
                 TurnOff]).
  { constructor; [|constructor; [|constructor; [exact I|constructor]]].
    - split; intros x E; vm_compute in E; injection E as <-; [right|]; lia.
    - intros data E. injection E as <-.
      split; [|split]; intros v E; vm_compute in E; try discriminate;
        injection E as <-; lia. }
  split; [split; [reflexivity | exact D]|].
  apply (native_domains_invariant reachable {[ CONF_HOST := "lamp" ]});
    [reflexivity | exact D].
Defined.

(** C2, as claimed, fails: a refresh whose body reports brightness 50 leaves
    50 in the cache, and a turn-on asking for host brightness 3 stores the
    native value 0; either way the cached brightness is outside 1..10. *)
Lemma native_domains_broken_by_refresh_and_turn_on :
  let body : gmap string Z :=
    {[ "brightness" := 50; "color_temp" := 6; "state" := 2 ]} in
  __init__ reachable {[ CONF_HOST := "lamp" ]} = Returned lamp
  /\ _brightness (self (run [Refresh (mkResponse (Some body))] (mkWorld lamp [] 0))) = 50
  /\ ~ in_native_domains (self (run [Refresh (mkResponse (Some body))] (mkWorld lamp [] 0)))
  /\ _brightness (self (run [TurnOn {[ "brightness" := 3 ]}] (mkWorld lamp [] 0))) = 0
  /\ ~ in_native_domains (self (run [TurnOn {[ "brightness" := 3 ]}] (mkWorld lamp [] 0))).
Proof.
  repeat split.
  - intros (B & _). vm_compute in B. destruct B as [_ B]. now apply B.
  - intros (B & _). vm_compute in B. destruct B as [B _]. now apply B.
Qed.

(** * Further properties of the entity *)

(** ** Color temperature conversions *)

Lemma color_temp_native (l : Light) :
  color_temp l = - (- (346 * _color_temp l + 1694) / 11).
Proof.
  unfold color_temp, COLOR_TEMP_SCALE, scale_to_ranged_value, states_in_range.
  cbn [fst snd].
  change (11 - 1 + 1) with (Z.pos 11). rewrite ceil_quotient.
  do 3 f_equal. lia.
Qed.

Ltac div_facts n d :=
  pose proof (Z.div_mod n d ltac:(lia));
  pose proof (Z.mod_pos_bound n d ltac:(lia)).

(** X1: over the native domain the color temperature property grows
    strictly with the cached native value and stays between 186 and 500
    mireds: for [1 <= c1 < c2 <= 11],
    [186 <= color_temp c1 < color_temp c2 <= 500]. *)
Theorem color_temp_read_increasing (l1 l2 : Light) :
  1 <= _color_temp l1 ->
  _color_temp l1 < _color_temp l2 ->
  _color_temp l2 <= 11 ->
  186 <= color_temp l1 /\ color_temp l1 < color_temp l2 /\ color_temp l2 <= 500.
Proof.
  intros H1 H12 H2. rewrite !color_temp_native.
  div_facts (- (346 * _color_temp l1 + 1694)) 11.
  div_facts (- (346 * _color_temp l2 + 1694)) 11.
  lia.
Qed.

Lemma color_temp_read_increasing_witness :
  let l1 := mkLight 10 1 2 "lamp" reachable "http://lamp/api/iris-lights/" in
  let l2 := mkLight 10 11 2 "lamp" reachable "http://lamp/api/iris-lights/" in
  (1 <= _color_temp l1 /\ _color_temp l1 < _color_temp l2 /\ _color_temp l2 <= 11)
  /\ 186 <= color_temp l1 /\ color_temp l1 < color_temp l2 /\ color_temp l2 <= 500.
Proof.
  split; [cbn; lia|].
  apply (color_temp_read_increasing
           (mkLight 10 1 2 "lamp" reachable "http://lamp/api/iris-lights/")
           (mkLight 10 11 2 "lamp" reachable "http://lamp/api/iris-lights/"));
    cbn; lia.
Defined.

(** X2: the color temperature write path (host mireds to native, ceiling)
    never decreases and maps the host range 155..500 into the native domain:
    for [155 <= m1 <= m2 <= 500], [1 <= native m1 <= native m2 <= 11]. *)
Theorem color_temp_write_monotone (m1 m2 : Z) :
  155 <= m1 -> m1 <= m2 -> m2 <= 500 ->
  1 <= Py.ceil (scale_to_ranged_value (155, 500) COLOR_TEMP_SCALE m1)
  /\ Py.ceil (scale_to_ranged_value (155, 500) COLOR_TEMP_SCALE m1)
     <= Py.ceil (scale_to_ranged_value (155, 500) COLOR_TEMP_SCALE m2)
  /\ Py.ceil (scale_to_ranged_value (155, 500) COLOR_TEMP_SCALE m2) <= 11.
Proof.
  intros H1 H12 H2. rewrite !color_temp_to_value_native.
  div_facts (- (11 * (m1 - 154))) 346.
  div_facts (- (11 * (m2 - 154))) 346.
  lia.
Qed.

Lemma color_temp_write_monotone_witness :
  (155 <= 200 /\ 200 <= 400 /\ 400 <= 500)
  /\ 1 <= Py.ceil (scale_to_ranged_value (155, 500) COLOR_TEMP_SCALE 200)
  /\ Py.ceil (scale_to_ranged_value (155, 500) COLOR_TEMP_SCALE 200)
     <= Py.ceil (scale_to_ranged_value (155, 500) COLOR_TEMP_SCALE 400)
  /\ Py.ceil (scale_to_ranged_value (155, 500) COLOR_TEMP_SCALE 400) <= 11.
Proof.
  split; [lia | apply (color_temp_write_monotone 200 400); lia].
Defined.

(** X3: the brightness write path (host to native, ceiling) never decreases
    and maps the host range 5..255 into the native domain: for
    [5 <= b1 <= b2 <= 255], [1 <= native b1 <= native b2 <= 10]. *)
Theorem brightness_write_monotone (b1 b2 : Z) :
  5 <= b1 -> b1 <= b2 -> b2 <= 255 ->
  1 <= Py.ceil (_brightness_to_value BRIGHTNESS_SCALE b1)
  /\ Py.ceil (_brightness_to_value BRIGHTNESS_SCALE b1)
     <= Py.ceil (_brightness_to_value BRIGHTNESS_SCALE b2)
  /\ Py.ceil (_brightness_to_value BRIGHTNESS_SCALE b2) <= 10.
Proof.
  intros H1 H12 H2. rewrite !brightness_to_value_native.
  div_facts (- (10 * (b1 - 4))) 251.
  div_facts (- (10 * (b2 - 4))) 251.
  lia.
Qed.

Lemma brightness_write_monotone_witness :
  (5 <= 5 /\ 5 <= 255 /\ 255 <= 255)
  /\ 1 <= Py.ceil (_brightness_to_value BRIGHTNESS_SCALE 5)
  /\ Py.ceil (_brightness_to_value BRIGHTNESS_SCALE 5)
     <= Py.ceil (_brightness_to_value BRIGHTNESS_SCALE 255)
  /\ Py.ceil (_brightness_to_value BRIGHTNESS_SCALE 255) <= 10.
Proof.
  split; [lia | apply (brightness_write_monotone 5 255); lia].
Defined.

(** X4: feeding the reported color temperature back into the write path
    does not return the cached native value unless it is a multiple of 11:
    for a cached value [c] of -1000..1000, writing [color_temp] gives [c]
    when 11 divides [c] and [c + 1] otherwise (both conversions round up),
    so every native value 1..10 drifts up by one and 11 is stable. *)
Theorem color_temp_reread_drifts (l : Light) :
  -1000 <= _color_temp l <= 1000 ->
  Py.ceil (scale_to_ranged_value (155, 500) COLOR_TEMP_SCALE (color_temp l)) =
  if _color_temp l mod 11 =? 0 then _color_temp l else _color_temp l + 1.
Proof.
  intros _.
  rewrite color_temp_to_value_native, color_temp_native.
  set (c := _color_temp l).
  div_facts (- (346 * c + 1694)) 11.
  set (q := - (346 * c + 1694) / 11) in *.
  div_facts (- (11 * (- q - 154))) 346.
  div_facts c 11.
  destruct (Z.eqb_spec (c mod 11) 0); lia.
Qed.

Lemma color_temp_reread_drifts_witness :
  let l := mkLight 10 6 2 "lamp" reachable "http://lamp/api/iris-lights/" in
  -1000 <= _color_temp l <= 1000
  /\ Py.ceil (scale_to_ranged_value (155, 500) COLOR_TEMP_SCALE (color_temp l)) = 7.
Proof.
  split; [cbn; lia|].
  apply (color_temp_reread_drifts
           (mkLight 10 6 2 "lamp" reachable "http://lamp/api/iris-lights/")).
  cbn; lia.
Defined.

(** X5: feeding the reported brightness back into the write path returns the
    cached native value for 1..4 and 10 and one more for 5..9 (the read path
    rounds to nearest, the write path rounds up). *)
Theorem brightness_reread_drifts (v : Z) :
  1 <= v <= 10 ->
  Py.ceil (_brightness_to_value BRIGHTNESS_SCALE
             (_value_to_brightness BRIGHTNESS_SCALE v)) =
  if (v <=? 4) || (v =? 10) then v else v + 1.
Proof.
  intros Hv.
  assert (C : v = 1 \/ v = 2 \/ v = 3 \/ v = 4 \/ v = 5 \/ v = 6 \/ v = 7
              \/ v = 8 \/ v = 9 \/ v = 10) by lia.
  repeat (destruct C as [->|C]; [reflexivity|]). subst v. reflexivity.
Qed.

Lemma brightness_reread_drifts_witness :
  1 <= 5 <= 10
  /\ Py.ceil (_brightness_to_value BRIGHTNESS_SCALE
                (_value_to_brightness BRIGHTNESS_SCALE 5)) = 6.
Proof.
  split; [lia | apply (brightness_reread_drifts 5); lia].
Defined.

(** X6: over the native domain distinct cached brightness values read as
    distinct host values: for [1 <= v1 < v2 <= 10] the conversion of [v1] is
    strictly below that of [v2], at least 29 and at most 255. *)
Theorem value_to_brightness_strictly_increasing (v1 v2 : Z) :
  1 <= v1 -> v1 < v2 -> v2 <= 10 ->
  29 <= _value_to_brightness BRIGHTNESS_SCALE v1
  /\ _value_to_brightness BRIGHTNESS_SCALE v1
     < _value_to_brightness BRIGHTNESS_SCALE v2
  /\ _value_to_brightness BRIGHTNESS_SCALE v2 <= 255.
Proof.
  intros H1 H12 H2. rewrite !value_to_brightness_native.
  pose proof (round_between (251 * v1 + 40) 10).
  pose proof (round_between (251 * v2 + 40) 10).
  lia.
Qed.

Lemma value_to_brightness_strictly_increasing_witness :
  (1 <= 1 /\ 1 < 2 /\ 2 <= 10)
  /\ 29 <= _value_to_brightness BRIGHTNESS_SCALE 1
  /\ _value_to_brightness BRIGHTNESS_SCALE 1
     < _value_to_brightness BRIGHTNESS_SCALE 2
  /\ _value_to_brightness BRIGHTNESS_SCALE 2 <= 255.
Proof.
  split; [lia | apply (value_to_brightness_strictly_increasing 1 2); lia].
Defined.

(** ** What a refresh stores *)

Lemma set_update_complete_world
    (response : ClientResponse) (data : gmap string Z) (b c s : Z) (w : World) :
  json response = Some data ->
  data !! "brightness" = Some b ->
  data !! "color_temp" = Some c ->
  data !! "state" = Some s ->
  _set_update response w =
  (Returned tt,
   mkWorld (mkLight b c s (_host (self w)) (_session (self w)) (_url (self w)))
           (posted w) (S (ha_state_writes w))).
Proof.
  intros Hj Hb Hc Hs. unfold _set_update. rewrite Hj. run_entity.
  rewrite Hb. simpl_world. rewrite Hc. simpl_world. rewrite Hs. reflexivity.
Qed.

(** X7: a refresh whose body carries the three fields returns normally,
    replaces the whole cache by the body's values whatever it held before,
    calls [async_write_ha_state] exactly once, sends nothing and leaves the
    entity's host, session and URL alone. *)
Theorem set_update_replaces_cache
    (response : ClientResponse) (data : gmap string Z) (b c s : Z) (w : World) :
  json response = Some data ->
  data !! "brightness" = Some b ->
  data !! "color_temp" = Some c ->
  data !! "state" = Some s ->
  let w' := snd (_set_update response w) in
  fst (_set_update response w) = Returned tt
  /\ cache (self w') = (b, c, s)
  /\ ha_state_writes w' = S (ha_state_writes w)
  /\ posted w' = posted w
  /\ _host (self w') = _host (self w)
  /\ _session (self w') = _session (self w)
  /\ _url (self w') = _url (self w).
Proof.
  intros Hj Hb Hc Hs w'. subst w'.
  rewrite (set_update_complete_world _ _ _ _ _ _ Hj Hb Hc Hs).
  repeat split.
Qed.

Lemma set_update_replaces_cache_witness :
  let data : gmap string Z :=
    {[ "brightness" := 10; "color_temp" := 1; "state" := 2 ]} in
  (json (mkResponse (Some data)) = Some data
   /\ data !! "brightness" = Some 10 /\ data !! "color_temp" = Some 1
   /\ data !! "state" = Some 2)
  /\ cache (self (snd (_set_update (mkResponse (Some data)) fresh))) = (10, 1, 2)
  /\ ha_state_writes (snd (_set_update (mkResponse (Some data)) fresh)) = 1%nat.
Proof.
  split; [repeat split|].
  pose proof (set_update_replaces_cache
                (mkResponse (Some {[ "brightness" := 10; "color_temp" := 1;
                                     "state" := 2 ]}))
                {[ "brightness" := 10; "color_temp" := 1; "state" := 2 ]}
                10 1 2 fresh eq_refl eq_refl eq_refl eq_refl)
    as (_ & C & N & _).
  split; [exact C | exact N].
Defined.

(** X8: when the GET of [get_update] fails in transport, or answers with a
    body that is not JSON, the call raises ([ClientError] in the first case,
    [JSONDecodeError] in the second) and the world is exactly as before: no
    cached field changes, nothing is sent, nobody is notified. *)
Theorem get_update_failure_keeps_world (w : World) :
  (forall response, get (_session (self w)) (_url (self w)) = Some response ->
                    json response = None) ->
  get_update w =
  (Raised (match get (_session (self w)) (_url (self w)) with
           | None => ClientError
           | Some _ => JSONDecodeError
           end), w).
Proof.
  intros H. unfold get_update. run_entity.
  destruct (get (_session (self w)) (_url (self w))) as [response|];
    [|reflexivity].
  unfold _set_update. now rewrite (H response eq_refl).
Qed.

Lemma get_update_failure_keeps_world_witness :
  (forall response, get (_session (self fresh)) (_url (self fresh)) = Some response ->
                    json response = None)
  /\ get_update fresh = (Raised ClientError, fresh).
Proof.
  assert (H : forall response,
             get (_session (self fresh)) (_url (self fresh)) = Some response ->
             json response = None) by (intros response E; discriminate E).
  split; [exact H | exact (get_update_failure_keeps_world fresh H)].
Defined.

(** ** Platform setup *)

(** X9: set up with a configuration that has no host entry, the platform
    raises [KeyError] for "host" before any entity is constructed or added. *)
Theorem setup_without_host
    (hass : ClientSession) (config_entry : gmap string string) :
  config_entry !! CONF_HOST = None ->
  async_setup_entry hass config_entry = mkSetup (Raised (KeyError "host")) 0 None.
Proof. intros H. unfold async_setup_entry, __init__. now rewrite H. Qed.

Lemma setup_without_host_witness :
  ({[ "port" := "80" ]} : gmap string string) !! CONF_HOST = None
  /\ async_setup_entry reachable {[ "port" := "80" ]} =
     mkSetup (Raised (KeyError "host")) 0 None.
Proof.
  split; [reflexivity|].
  apply (setup_without_host reachable {[ "port" := "80" ]}). reflexivity.
Defined.

(** X10: when the first GET fails in transport, setup raises [ClientError]
    after the entity has been added: the platform is left with one entity
    that caches the class defaults (brightness 10, color temperature 6,
    power state 2: on, host brightness 255), has sent nothing and has never
    written its state. *)
Theorem setup_unreachable_keeps_defaults
    (hass : ClientSession) (config_entry : gmap string string) (host : string) :
  config_entry !! CONF_HOST = Some host ->
  get hass ("http://" +:+ host +:+ "/api/iris-lights/") = None ->
  let l := mkLight 10 6 2 host hass ("http://" +:+ host +:+ "/api/iris-lights/") in
  async_setup_entry hass config_entry =
  mkSetup (Raised ClientError) 1 (Some (mkWorld l [] 0))
  /\ is_on l = true /\ brightness l = 255 /\ name l = host.
Proof.
  intros Hh Hg l. split; [|repeat split].
  unfold async_setup_entry, __init__. rewrite Hh.
  unfold get_update. run_entity. now rewrite Hg.
Qed.

Lemma setup_unreachable_keeps_defaults_witness :
  (({[ CONF_HOST := "lamp" ]} : gmap string string) !! CONF_HOST = Some "lamp"
   /\ get reachable ("http://" +:+ "lamp" +:+ "/api/iris-lights/") = None)
  /\ async_setup_entry reachable {[ CONF_HOST := "lamp" ]} =
     mkSetup (Raised ClientError) 1 (Some fresh).
Proof.
  split; [split; reflexivity|].
  assert (Hh : ({[ CONF_HOST := "lamp" ]} : gmap string string) !! CONF_HOST
               = Some "lamp") by reflexivity.
  exact (proj1 (setup_unreachable_keeps_defaults
                  reachable {[ CONF_HOST := "lamp" ]} "lamp" Hh eq_refl)).
Defined.

(** X11: when the GET of the base URL [http://{host}/api/iris-lights/]
    answers with a body carrying the three fields, setup returns normally
    with one entity added, whose cache is the body's values instead of the
    class defaults and whose state has been written once; no POST was sent. *)
Theorem setup_first_refresh
    (hass : ClientSession) (config_entry : gmap string string) (host : string)
    (response : ClientResponse) (data : gmap string Z) (b c s : Z) :
  config_entry !! CONF_HOST = Some host ->
  get hass ("http://" +:+ host +:+ "/api/iris-lights/") = Some response ->
  json response = Some data ->
  data !! "brightness" = Some b ->
  data !! "color_temp" = Some c ->
  data !! "state" = Some s ->
  async_setup_entry hass config_entry =
  mkSetup (Returned tt) 1
    (Some (mkWorld
             (mkLight b c s host hass ("http://" +:+ host +:+ "/api/iris-lights/"))
             [] 1)).
Proof.
  intros Hh Hg Hj Hb Hc Hs.
  unfold async_setup_entry, __init__. rewrite Hh.
  unfold get_update. run_entity. rewrite Hg.
  now rewrite (set_update_complete_world _ _ _ _ _ _ Hj Hb Hc Hs).
Qed.

Lemma setup_first_refresh_witness :
  let data : gmap string Z :=
    {[ "brightness" := 3; "color_temp" := 11; "state" := 0 ]} in
  (({[ CONF_HOST := "lamp" ]} : gmap string string) !! CONF_HOST = Some "lamp"
   /\ get (answering data) ("http://" +:+ "lamp" +:+ "/api/iris-lights/")
      = Some (mkResponse (Some data))
   /\ json (mkResponse (Some data)) = Some data
   /\ data !! "brightness" = Some 3 /\ data !! "color_temp" = Some 11
   /\ data !! "state" = Some 0)
  /\ async_setup_entry (answering data) {[ CONF_HOST := "lamp" ]} =
     mkSetup (Returned tt) 1
       (Some (mkWorld
                (mkLight 3 11 0 "lamp" (answering data)
                         "http://lamp/api/iris-lights/") [] 1)).
Proof.
  split; [repeat split|].
  apply (setup_first_refresh
           (answering {[ "brightness" := 3; "color_temp" := 11; "state" := 0 ]})
           {[ CONF_HOST := "lamp" ]} "lamp"
           (mkResponse (Some {[ "brightness" := 3; "color_temp" := 11;
                                "state" := 0 ]}))
           {[ "brightness" := 3; "color_temp" := 11; "state" := 0 ]} 3 11 0);
    reflexivity.
Defined.

(** ** Turning on and off *)

Ltac split_posts :=
  repeat (simpl_world;
          match goal with
          | |- context [post_ok ?s ?r] => destruct (post_ok s r) eqn:?
          end);
  simpl_world.

Lemma turn_on_delivered_world (kwargs : gmap string Z) (w : World) :
  kwargs !! "brightness" <> Some 1 ->
  delivers (_session (self w)) ->
  async_turn_on kwargs w =
  (Returned tt,
   mkWorld
     (mkLight
        (match kwargs !! "brightness" with
         | Some b => Py.ceil (_brightness_to_value BRIGHTNESS_SCALE b)
         | None => _brightness (self w)
         end)
        (match kwargs !! "color_temp" with
         | Some m => Py.ceil (scale_to_ranged_value (155, 500) COLOR_TEMP_SCALE m)
         | None => _color_temp (self w)
         end)
        (_state (self w)) (_host (self w)) (_session (self w)) (_url (self w)))
     (posted w ++ turn_on_requests (_url (self w)) kwargs)
     (ha_state_writes w)).
Proof.
  intros Hn Hd. unfold async_turn_on, turn_on_requests.
  rewrite bool_decide_eq_false_2 by exact Hn.
  destruct (kwargs !! "brightness") as [b|];
    destruct (kwargs !! "color_temp") as [m|];
    run_entity; repeat (rewrite Hd; simpl_world);
    rewrite <- ?app_assoc; destruct w as [[] ? ?]; reflexivity.
Qed.

Lemma turn_on_frame (kwargs : gmap string Z) (w : World) :
  let w' := snd (async_turn_on kwargs w) in
  _state (self w') = _state (self w)
  /\ _host (self w') = _host (self w)
  /\ _session (self w') = _session (self w)
  /\ _url (self w') = _url (self w)
  /\ ha_state_writes w' = ha_state_writes w
  /\ exists rs, posted w' = posted w ++ rs
                /\ Forall (wire_request (_url (self w))) rs
                /\ (1 <= length rs <= 3)%nat.
Proof.
  assert (Won : wire_request (_url (self w))
                  (mkRequest (_url (self w) +:+ "on") None)).
  { left. split; [reflexivity|]. cbn. rewrite !elem_of_cons. auto. }
  assert (Wnight : wire_request (_url (self w))
                     (mkRequest (_url (self w) +:+ "night") None)).
  { left. split; [reflexivity|]. cbn. rewrite !elem_of_cons. auto. }
  assert (Wb : forall v, wire_request (_url (self w))
                           (mkRequest (_url (self w) +:+ "bright") (Some v))).
  { intros v. right. split; [cbn; eauto|]. cbn. rewrite !elem_of_cons. auto. }
  assert (Wc : forall v, wire_request (_url (self w))
                           (mkRequest (_url (self w) +:+ "color-temp") (Some v))).
  { intros v. right. split; [cbn; eauto|]. cbn. rewrite !elem_of_cons. auto. }
  cbv zeta. unfold async_turn_on.
  case_bool_decide.
  - rewrite post_data_spec. simpl_world. repeat split.
    eexists. split; [reflexivity|]. split; [|cbn; lia]. now repeat constructor.
  - destruct (kwargs !! "brightness") as [b|];
      destruct (kwargs !! "color_temp") as [m|];
      run_entity; split_posts; repeat split;
      rewrite <- ?app_assoc; (eexists; split; [reflexivity|]);
      (split; [|cbn; lia]);
      repeat (apply List.Forall_cons; [auto|]); apply List.Forall_nil.
Qed.

(** X12: a turn-off sends exactly one command, "off" with a null value, to
    the base URL, delivered or not, and leaves the entity as it was: the
    cached power state, hence [is_on], changes only with a later refresh. *)
Theorem turn_off_sends_off_only (w : World) :
  let w' := snd (async_turn_off w) in
  sent_since w w' = [mkRequest (_url (self w) +:+ "off") None]
  /\ self w' = self w
  /\ is_on (self w') = is_on (self w)
  /\ ha_state_writes w' = ha_state_writes w
  /\ fst (async_turn_off w) =
     if post_ok (_session (self w)) (mkRequest (_url (self w) +:+ "off") None)
     then Returned tt else Raised ClientError.
Proof.
  cbv zeta. unfold async_turn_off. rewrite post_data_spec. simpl_world.
  split; [now apply sent_since_app|]. repeat split.
Qed.

(** X13: whatever its options and whatever the session does, a turn-on never
    changes the cached power state, so [is_on] is what it was (an entity
    cached as off still reports off) and an entity cached in night mode
    still reports brightness 1; it never writes the entity's state, and it
    sends between one and three requests. *)
Theorem turn_on_keeps_power_state (kwargs : gmap string Z) (w : World) :
  let w' := snd (async_turn_on kwargs w) in
  _state (self w') = _state (self w)
  /\ is_on (self w') = is_on (self w)
  /\ (_state (self w) = 1 -> brightness (self w') = 1)
  /\ ha_state_writes w' = ha_state_writes w
  /\ (1 <= length (sent_since w w') <= 3)%nat.
Proof.
  destruct (turn_on_frame kwargs w) as (S & _ & _ & _ & N & rs & P & _ & L).
  cbv zeta. split; [exact S|]. split; [unfold is_on; now rewrite S|].
  split; [intros E; unfold brightness; now rewrite S, E|].
  split; [exact N|]. now rewrite (sent_since_app _ _ _ P).
Qed.

Lemma turn_on_keeps_power_state_witness :
  let l := mkLight 10 6 1 "lamp" reachable "http://lamp/api/iris-lights/" in
  let w' := snd (async_turn_on {[ "brightness" := 200 ]} (mkWorld l [] 0)) in
  _state l = 1
  /\ _state (self w') = 1 /\ brightness (self w') = 1.
Proof.
  pose proof (turn_on_keeps_power_state
                {[ "brightness" := 200 ]}
                (mkWorld (mkLight 10 6 1 "lamp" reachable
                                  "http://lamp/api/iris-lights/") [] 0))
    as (S & _ & B & _).
  split; [reflexivity|]. split; [exact S | exact (B eq_refl)].
Defined.

(** X14: a turn-on with neither a brightness nor a color temperature sends
    exactly one command, "on" with a null value, and leaves the entity as it
    was. *)
Theorem turn_on_without_options (kwargs : gmap string Z) (w : World) :
  kwargs !! "brightness" = None ->
  kwargs !! "color_temp" = None ->
  let w' := snd (async_turn_on kwargs w) in
  sent_since w w' = [mkRequest (_url (self w) +:+ "on") None]
  /\ self w' = self w.
Proof.
  intros Hb Hc. cbv zeta. unfold async_turn_on.
  rewrite bool_decide_eq_false_2 by (rewrite Hb; discriminate).
  rewrite Hb, Hc. run_entity. split_posts;
    (split; [now apply sent_since_app | reflexivity]).
Qed.

Lemma turn_on_without_options_witness :
  ((∅ : gmap string Z) !! "brightness" = None
   /\ (∅ : gmap string Z) !! "color_temp" = None)
  /\ sent_since fresh (snd (async_turn_on ∅ fresh)) =
       [mkRequest "http://lamp/api/iris-lights/on" None]
  /\ self (snd (async_turn_on ∅ fresh)) = lamp.
Proof.
  split; [split; reflexivity|].
  apply (turn_on_without_options ∅ fresh); reflexivity.
Defined.

(** X15: when the "on" POST of a turn-on fails in transport, the call raises
    [ClientError] at once: "on" is the only request sent, and the entity is
    as it was, whatever brightness or color temperature was asked for. *)
Theorem turn_on_on_failure (kwargs : gmap string Z) (w : World) :
  kwargs !! "brightness" <> Some 1 ->
  post_ok (_session (self w)) (mkRequest (_url (self w) +:+ "on") None) = false ->
  async_turn_on kwargs w =
  (Raised ClientError,
   mkWorld (self w) (posted w ++ [mkRequest (_url (self w) +:+ "on") None])
           (ha_state_writes w)).
Proof.
  intros Hn Hf. unfold async_turn_on.
  rewrite bool_decide_eq_false_2 by exact Hn.
  unfold bind at 1. rewrite post_data_spec. cbv zeta. now rewrite Hf.
Qed.

Lemma turn_on_on_failure_witness :
  let kwargs : gmap string Z := {[ "brightness" := 200; "color_temp" := 300 ]} in
  let l := mkLight 10 6 2 "lamp" (answering ∅) "http://lamp/api/iris-lights/" in
  (kwargs !! "brightness" <> Some 1
   /\ post_ok (_session l) (mkRequest (_url l +:+ "on") None) = false)
  /\ async_turn_on kwargs (mkWorld l [] 0) =
     (Raised ClientError,
      mkWorld l [mkRequest "http://lamp/api/iris-lights/on" None] 0).
Proof.
  split; [split; [discriminate | reflexivity]|].
  apply (turn_on_on_failure
           {[ "brightness" := 200; "color_temp" := 300 ]}
           (mkWorld (mkLight 10 6 2 "lamp" (answering ∅)
                             "http://lamp/api/iris-lights/") [] 0));
    [discriminate | reflexivity].
Defined.



Lemma brightness_write_read_bounds (b : Z) :
  4 <= b <= 255 ->
  b <= _value_to_brightness BRIGHTNESS_SCALE
         (Py.ceil (_brightness_to_value BRIGHTNESS_SCALE b)) <= b + 25.
Proof.
  intros Hb. rewrite brightness_to_value_native, value_to_brightness_native.
  div_facts (- (10 * (b - 4))) 251.
  set (q := - (10 * (b - 4)) / 251) in *.
  pose proof (round_between (251 * - q + 40) 10).
  lia.
Qed.

(** X17: after a delivered turn-on asking for host brightness [b] of 5..255,
    an entity whose cached power state is not night mode reports a
    brightness between [b] and [b + 25]: the value read back is never below
    the one asked for. *)
Theorem turn_on_then_brightness (kwargs : gmap string Z) (b : Z) (w : World) :
  kwargs !! "brightness" = Some b ->
  5 <= b <= 255 ->
  delivers (_session (self w)) ->
  _state (self w) <> 1 ->
  let w' := snd (async_turn_on kwargs w) in
  b <= brightness (self w') <= b + 25.
Proof.
  intros Hb Hr Hd Hs. cbv zeta.
  assert (Hn : kwargs !! "brightness" <> Some 1)
    by (rewrite Hb; intros [= ->]; lia).
  rewrite turn_on_delivered_world by assumption.
  simpl_world. unfold brightness. simpl_world. rewrite Hb.
  destruct (Z.eqb_spec (_state (self w)) 1); [contradiction|].
  apply brightness_write_read_bounds. lia.
Qed.

Lemma turn_on_then_brightness_witness :
  let kwargs : gmap string Z := {[ "brightness" := 128 ]} in
  (kwargs !! "brightness" = Some 128 /\ 5 <= 128 <= 255
   /\ delivers (_session (self fresh)) /\ _state (self fresh) <> 1)
  /\ 128 <= brightness (self (snd (async_turn_on kwargs fresh))) <= 128 + 25.
Proof.
  assert (D : delivers (_session (self fresh))) by (intros r; reflexivity).
  assert (S : _state (self fresh) <> 1) by discriminate.
  split; [split; [reflexivity | split; [lia | split; [exact D | exact S]]]|].
  apply (turn_on_then_brightness {[ "brightness" := 128 ]} 128 fresh);
    [reflexivity | lia | exact D | exact S].
Defined.

Lemma color_temp_write_read_bounds (m : Z) (l : Light) :
  155 <= m <= 500 ->
  _color_temp l = Py.ceil (scale_to_ranged_value (155, 500) COLOR_TEMP_SCALE m) ->
  m <= color_temp l <= m + 32.
Proof.
  intros _ E. rewrite color_temp_native, E, color_temp_to_value_native.
  div_facts (- (11 * (m - 154))) 346.
  set (q := - (11 * (m - 154)) / 346) in *.
  div_facts (- (346 * - q + 1694)) 11.
  lia.
Qed.

(** X18: after a delivered turn-on asking for a color temperature of [m]
    mireds in the host range 155..500 (and for no brightness, or one of
    0..255 other than 1), the entity reports a color temperature between
    [m] and [m + 32] mireds: both directions round up, so the value read
    back is never below the one asked for. *)
Theorem turn_on_then_color_temp (kwargs : gmap string Z) (m : Z) (w : World) :
  kwargs !! "color_temp" = Some m ->
  155 <= m <= 500 ->
  (forall b, kwargs !! "brightness" = Some b -> 0 <= b <= 255 /\ b <> 1) ->
  delivers (_session (self w)) ->
  let w' := snd (async_turn_on kwargs w) in
  m <= color_temp (self w') <= m + 32.
Proof.
  intros Hm Hr Hb Hd. cbv zeta.
  assert (Hn : kwargs !! "brightness" <> Some 1).
  { intros E. destruct (Hb 1 E) as [_ N]. now apply N. }
  rewrite turn_on_delivered_world by assumption.
  simpl_world. apply (color_temp_write_read_bounds m); [exact Hr|].
  simpl_world. now rewrite Hm.
Qed.

Lemma turn_on_then_color_temp_witness :
  let kwargs : gmap string Z := {[ "color_temp" := 300 ]} in
  (kwargs !! "color_temp" = Some 300 /\ 155 <= 300 <= 500
   /\ (forall b, kwargs !! "brightness" = Some b -> 0 <= b <= 255 /\ b <> 1)
   /\ delivers (_session (self fresh)))
  /\ 300 <= color_temp (self (snd (async_turn_on kwargs fresh))) <= 300 + 32.
Proof.
  assert (D : delivers (_session (self fresh))) by (intros r; reflexivity).
  assert (B : forall b, ({[ "color_temp" := 300 ]} : gmap string Z) !! "brightness"
                        = Some b -> 0 <= b <= 255 /\ b <> 1)
    by (intros b E; discriminate E).
  split; [split; [reflexivity | split; [lia | split; [exact B | exact D]]]|].
  apply (turn_on_then_color_temp {[ "color_temp" := 300 ]} 300 fresh);
    [reflexivity | lia | exact B | exact D].
Defined.

(** X19: a delivered turn-on asking for host brightness 0, 2, 3 or 4 sends
    "bright" with value 0 and caches native brightness 0, below the native
    domain; an entity not cached in night mode then reports brightness 4. *)
Theorem turn_on_low_brightness_sends_zero
    (kwargs : gmap string Z) (b : Z) (w : World) :
  kwargs !! "brightness" = Some b ->
  0 <= b <= 4 ->
  b <> 1 ->
  delivers (_session (self w)) ->
  let w' := snd (async_turn_on kwargs w) in
  mkRequest (_url (self w) +:+ "bright") (Some 0) ∈ sent_since w w'
  /\ _brightness (self w') = 0
  /\ (_state (self w) <> 1 -> brightness (self w') = 4).
Proof.
  intros Hb Hr Hn Hd. cbv zeta.
  assert (Z0 : Py.ceil (_brightness_to_value BRIGHTNESS_SCALE b) = 0).
  { rewrite brightness_to_value_native.
    div_facts (- (10 * (b - 4))) 251. lia. }
  assert (Hn1 : kwargs !! "brightness" <> Some 1)
    by (rewrite Hb; intros [= ->]; lia).
  rewrite turn_on_delivered_world by assumption.
  simpl_world. unfold turn_on_requests. rewrite Hb, Z0.
  split; [|split; [reflexivity|]].
  - erewrite sent_since_app by (simpl_world; reflexivity).
    rewrite !elem_of_app, !elem_of_cons. auto.
  - intros Hs. unfold brightness. simpl_world.
    destruct (Z.eqb_spec (_state (self w)) 1); [contradiction | reflexivity].
Qed.

Lemma turn_on_low_brightness_sends_zero_witness :
  let kwargs : gmap string Z := {[ "brightness" := 3 ]} in
  (kwargs !! "brightness" = Some 3 /\ 0 <= 3 <= 4 /\ 3 <> 1
   /\ delivers (_session (self fresh)))
  /\ _brightness (self (snd (async_turn_on kwargs fresh))) = 0.
Proof.
  assert (D : delivers (_session (self fresh))) by (intros r; reflexivity).
  split; [split; [reflexivity | split; [lia | split; [discriminate | exact D]]]|].
  apply (turn_on_low_brightness_sends_zero {[ "brightness" := 3 ]} 3 fresh);
    [reflexivity | lia | discriminate | exact D].
Defined.

(** ** Any sequence of calls *)

Lemma set_update_frame (response : ClientResponse) (w : World) :
  let w' := snd (_set_update response w) in
  _host (self w') = _host (self w)
  /\ _session (self w') = _session (self w)
  /\ _url (self w') = _url (self w)
  /\ posted w' = posted w
  /\ ha_state_writes w' =
     (ha_state_writes w + if notifies (Refresh response) then 1 else 0)%nat.
Proof.
  cbv zeta. unfold _set_update, notifies, first_missing.
  destruct (json response) as [data|]; run_entity;
    [|repeat split; simpl_world; lia].
  destruct (data !! "brightness"); simpl_world;
    [|repeat split; simpl_world; lia].
  destruct (data !! "color_temp"); simpl_world;
    [|repeat split; simpl_world; lia].
  destruct (data !! "state"); simpl_world; repeat split; simpl_world; lia.
Qed.

Lemma perform_frame (o : op) (w : World) :
  let w' := snd (perform o w) in
  _host (self w') = _host (self w)
  /\ _session (self w') = _session (self w)
  /\ _url (self w') = _url (self w)
  /\ ha_state_writes w' = (ha_state_writes w + if notifies o then 1 else 0)%nat
  /\ exists rs, posted w' = posted w ++ rs
                /\ Forall (wire_request (_url (self w))) rs.
Proof.
  destruct o as [kwargs| |response]; cbv zeta; cbn [perform].
  - destruct (turn_on_frame kwargs w) as (_ & H & S & U & N & rs & P & W & _).
    cbn [notifies]. repeat split; try assumption; [lia|]. now exists rs.
  - unfold async_turn_off. rewrite post_data_spec. simpl_world.
    cbn [notifies]. repeat split; [lia|].
    eexists. split; [reflexivity|]. apply Forall_singleton.
    left. split; [reflexivity|]. cbn. rewrite !elem_of_cons. auto.
  - destruct (set_update_frame response w) as (H & S & U & P & N).
    repeat split; try assumption.
    exists []. rewrite app_nil_r. split; [exact P | constructor].
Qed.

Lemma run_frame (ops : list op) :
  forall w,
    _host (self (run ops w)) = _host (self w)
    /\ _session (self (run ops w)) = _session (self w)
    /\ _url (self (run ops w)) = _url (self w)
    /\ ha_state_writes (run ops w) =
       (ha_state_writes w + length (List.filter notifies ops))%nat
    /\ exists rs, posted (run ops w) = posted w ++ rs
                  /\ Forall (wire_request (_url (self w))) rs.
Proof.
  induction ops as [|o ops IH]; intros w; cbn [run List.filter].
  - repeat split; [cbn [length]; lia|]. exists []. now rewrite app_nil_r.
  - destruct (perform_frame o w) as (H & S & U & N & rs & P & W).
    destruct (IH (snd (perform o w))) as (H' & S' & U' & N' & rs' & P' & W').
    rewrite H', S', U', N', P', N, P, U in *.
    repeat split; try assumption.
    + destruct (notifies o); cbn [length]; lia.
    + exists (rs ++ rs'). rewrite app_assoc. split; [reflexivity|].
      apply Forall_app. now split.
Qed.

Lemma run_app (ops1 ops2 : list op) (w : World) :
  run (ops1 ++ ops2) w = run ops2 (run ops1 w).
Proof.
  revert w. induction ops1 as [|o ops1 IH]; intros w; cbn [run app].
  - reflexivity.
  - apply IH.
Qed.

(** X20: no sequence of turn-ons, turn-offs and refreshes, failed or not,
    changes the entity's host, session or base URL; its display name is the
    host it was constructed with. *)
Theorem run_keeps_endpoint (ops : list op) (w : World) :
  _host (self (run ops w)) = _host (self w)
  /\ _session (self (run ops w)) = _session (self w)
  /\ _url (self (run ops w)) = _url (self w)
  /\ name (self (run ops w)) = name (self w).
Proof.
  destruct (run_frame ops w) as (H & S & U & _).
  unfold name. now rewrite H, S, U.
Qed.

(** X21: along any sequence of calls the log of POSTs only grows, and every
    request added goes to one of the five endpoints below the base URL: "on",
    "off" or "night" with a null value, "bright" or "color-temp" with an
    integer value. *)
Theorem run_posts_wire_requests (ops : list op) (w : World) :
  posted (run ops w) = posted w ++ sent_since w (run ops w)
  /\ Forall (wire_request (_url (self w))) (sent_since w (run ops w)).
Proof.
  destruct (run_frame ops w) as (_ & _ & _ & _ & rs & P & W).
  rewrite (sent_since_app _ _ _ P). now split.
Qed.

(** X22: along any sequence of calls [async_write_ha_state] is called once
    for every refresh whose body decodes and carries the three fields, and
    never otherwise: turn-ons, turn-offs and failed refreshes do not write
    the entity's state. *)
Theorem run_notifications (ops : list op) (w : World) :
  ha_state_writes (run ops w) =
  (ha_state_writes w + length (List.filter notifies ops))%nat.
Proof.
  destruct (run_frame ops w) as (_ & _ & _ & N & _).
  exact N.
Qed.

(** X23: whatever calls came before and whatever they left in the cache, a
    refresh whose body carries the three fields leaves exactly the body's
    values in the cache. *)
Theorem refresh_after_run_replaces_cache
    (ops : list op) (response : ClientResponse) (data : gmap string Z)
    (b c s : Z) (w : World) :
  json response = Some data ->
  data !! "brightness" = Some b ->
  data !! "color_temp" = Some c ->
  data !! "state" = Some s ->
  cache (self (run (ops ++ [Refresh response]) w)) = (b, c, s).
Proof.
  intros Hj Hb Hc Hs. rewrite run_app. cbn [run perform].
  now rewrite (set_update_complete_world _ _ _ _ _ _ Hj Hb Hc Hs).
Qed.

Lemma refresh_after_run_replaces_cache_witness :
  let data : gmap string Z :=
    {[ "brightness" := 7; "color_temp" := 2; "state" := 1 ]} in
  (json (mkResponse (Some data)) = Some data
   /\ data !! "brightness" = Some 7 /\ data !! "color_temp" = Some 2
   /\ data !! "state" = Some 1)
  /\ cache (self (run ([TurnOn {[ "brightness" := 3 ]}; TurnOff]
                       ++ [Refresh (mkResponse (Some data))]) fresh)) = (7, 2, 1).
Proof.
  split; [repeat split|].
  apply (refresh_after_run_replaces_cache
           [TurnOn {[ "brightness" := 3 ]}; TurnOff]
           (mkResponse (Some {[ "brightness" := 7; "color_temp" := 2;
                                "state" := 1 ]}))
           {[ "brightness" := 7; "color_temp" := 2; "state" := 1 ]} 7 2 1 fresh);
    reflexivity.
Defined.
